(** * Boost.Scope Conan recipe ([conan/conanfile.py]): a shallow embedding

    The recipe is a [ConanFile] subclass with five hooks: [validate],
    [export_sources], [build], [package] and [package_id].  Every hook is a
    method that mutates [self] (its output stream, the folders it is handed,
    its [info]) and may raise.  Hooks are embedded as computations in a
    state-and-exception monad over a record standing for [self].

    The helpers the recipe imports from Conan ([check_min_cppstd], [Version],
    [copy], [patch], [info.clear]) are not part of the repository.  Each one
    is given a definition of its own below, marked as such. *)

From Stdlib Require Import NArith Ascii DecimalString.
From stdpp Require Import base option list strings gmap fin_maps.

Local Open Scope string_scope.
Local Open Scope list_scope.
Local Open Scope N_scope.

(** ** Python values *)

(** Python's truth-value protocol, for the types the recipe tests with
    [if x] / [if not x]: a string is true unless empty, an int unless zero,
    [None] is false. *)
Class Truthy (A : Type) := truthy : A → bool.

#[global] Instance Truthy_string : Truthy string :=
  λ s, negb (String.eqb s "").
#[global] Instance Truthy_int : Truthy N :=
  λ n, negb (N.eqb n 0).
#[global] Instance Truthy_option {A} `{Truthy A} : Truthy (option A) :=
  λ o, match o with None => false | Some a => truthy a end.

(** [str(n)] for a non-negative int. *)
Definition str (n : N) : string := NilZero.string_of_uint (N.to_uint n).

(** ** Exceptions and the hook monad *)

Inductive Exception :=
  | ConanInvalidConfiguration (msg : string)
  | ConanException (msg : string)
  | FileNotFoundError (filename : string).   (* Python's builtin *)

Inductive result (A : Type) :=
  | Ok (a : A)
  | Raise (e : Exception).
Arguments Ok {A} a.
Arguments Raise {A} e.

(** ** [conan.tools.scm.Version] *)

(** Modelled from the spec: [Version] is Conan's class, not part of the
    repository; the spec calls a compiler version a "comparable version
    token".  A version is kept as the tuple of its dot-separated numeric
    items ("5.4.0" is [[5; 4; 0]]); comparison drops trailing zero items and
    compares the tuples as Python compares tuples. *)
Definition Version := list N.

(** Modelled from the spec: part of [Version] (Conan's).  Leading zero
    items of a list, dropped; used on the reversed tuple. *)
Fixpoint strip_zeros (l : list N) : list N :=
  match l with
  | 0 :: l' => strip_zeros l'
  | _ => l
  end.

(** Modelled from the spec: part of [Version] (Conan's).  The items
    without the trailing zeros: "6.0" and "6" compare equal. *)
Definition nonzero_items (v : Version) : list N :=
  rev (strip_zeros (rev v)).

(** Modelled from the spec: part of [Version] (Conan's).  Python's [<]
    on tuples of ints: the first differing item decides, a proper prefix
    is smaller. *)
Fixpoint tuple_lt (a b : list N) : bool :=
  match a, b with
  | _, [] => false
  | [], _ :: _ => true
  | x :: a', y :: b' =>
      if x <? y then true else if y <? x then false else tuple_lt a' b'
  end.

(** Modelled from the spec: [Version.__lt__] (Conan's), the spec's
    "compare the supplied compiler version against the table entry". *)
Definition Version_lt (v w : Version) : bool :=
  tuple_lt (nonzero_items v) (nonzero_items w).

(** Modelled from the spec: part of [Version] (Conan's).  [Version(n)]
    for an int [n]. *)
Definition Version_of_int (n : N) : Version := [n].

(** Modelled from the spec: part of [Version] (Conan's).  [v < other]
    for a right operand that is an int or [None]: nothing is less than
    [None], an int is made a [Version] first. *)
Definition Version_lt_other (v : Version) (other : option N) : bool :=
  match other with
  | None => false
  | Some n => Version_lt v (Version_of_int n)
  end.

(** ** Settings, output and the recipe object *)

(** [settings = "compiler", "build_type"]; the compiler setting carries
    its sub-settings [version] and [cppstd] ([None] when not set). *)
Record Settings := {
  compiler : string;
  compiler_version : Version;
  compiler_cppstd : option string;
  build_type : string
}.

Inductive Level := Warning.

(** A tree of files: relative path to content. *)
Abbreviation Tree := (gmap string (list Byte.byte)).

(** The package identity record [self.info]. *)
Record Info := {
  info_settings : list (string * string);
  info_options : list (string * string);
  info_requires : list string
}.

(** The folders the recipe reads and writes. *)
Inductive Folder :=
  | RecipeParent          (* os.path.join(self.recipe_folder, "..") *)
  | ExportSourcesFolder   (* self.export_sources_folder *)
  | SourceFolder          (* self.source_folder *)
  | PackageFolder.        (* self.package_folder *)

#[global] Instance Folder_eq_dec : EqDecision Folder.
Proof. solve_decision. Defined.

Record ConanFile := {
  settings : Settings;
  output : list (Level * string);
  recipe_parent : Tree;
  export_sources_folder : Tree;
  source_folder : Tree;
  package_folder : Tree;
  info : Info
}.

Definition folder (f : Folder) (self : ConanFile) : Tree :=
  match f with
  | RecipeParent => recipe_parent self
  | ExportSourcesFolder => export_sources_folder self
  | SourceFolder => source_folder self
  | PackageFolder => package_folder self
  end.

Definition set_folder (f : Folder) (t : Tree) (self : ConanFile) : ConanFile :=
  match f with
  | RecipeParent =>
      {| settings := settings self; output := output self;
         recipe_parent := t;
         export_sources_folder := export_sources_folder self;
         source_folder := source_folder self;
         package_folder := package_folder self; info := info self |}
  | ExportSourcesFolder =>
      {| settings := settings self; output := output self;
         recipe_parent := recipe_parent self;
         export_sources_folder := t;
         source_folder := source_folder self;
         package_folder := package_folder self; info := info self |}
  | SourceFolder =>
      {| settings := settings self; output := output self;
         recipe_parent := recipe_parent self;
         export_sources_folder := export_sources_folder self;
         source_folder := t;
         package_folder := package_folder self; info := info self |}
  | PackageFolder =>
      {| settings := settings self; output := output self;
         recipe_parent := recipe_parent self;
         export_sources_folder := export_sources_folder self;
         source_folder := source_folder self;
         package_folder := t; info := info self |}
  end.

Definition set_output (o : list (Level * string)) (self : ConanFile) : ConanFile :=
  {| settings := settings self; output := o;
     recipe_parent := recipe_parent self;
     export_sources_folder := export_sources_folder self;
     source_folder := source_folder self;
     package_folder := package_folder self; info := info self |}.

Definition set_info (i : Info) (self : ConanFile) : ConanFile :=
  {| settings := settings self; output := output self;
     recipe_parent := recipe_parent self;
     export_sources_folder := export_sources_folder self;
     source_folder := source_folder self;
     package_folder := package_folder self; info := i |}.

(** A method of the recipe: it gets [self], and either returns a value
    and the mutated [self] or raises. *)
Definition M (A : Type) : Type := ConanFile → result (A * ConanFile).

Definition ret {A} (a : A) : M A := λ self, Ok (a, self).
Definition raise {A} (e : Exception) : M A := λ _, Raise e.
Definition bind {A B} (m : M A) (k : A → M B) : M B :=
  λ self, match m self with
          | Ok (a, self') => k a self'
          | Raise e => Raise e
          end.

Declare Scope hook_scope.
Delimit Scope hook_scope with hook.
Notation "'let*' x := m 'in' k" := (bind m (λ x, k))
  (at level 10, x name, m at level 100, k at level 200) : hook_scope.
Notation "m >> k" := (bind m (λ _, k))
  (at level 65, right associativity) : hook_scope.

(** [self.output.warning(msg)]: one more line on the output, no other
    effect. *)
Definition output_warning (msg : string) : M unit :=
  λ self, Ok (tt, set_output (output self ++ [(Warning, msg)]) self).

(** [self.settings.compiler.get_safe("cppstd")] *)
Definition get_safe_cppstd : M (option string) :=
  λ self, Ok (compiler_cppstd (settings self), self).

(** [self.settings.compiler.version] *)
Definition get_compiler_version : M Version :=
  λ self, Ok (compiler_version (settings self), self).

(** ** [conan.tools.build.check_min_cppstd] *)

(** Modelled from the spec: part of [check_min_cppstd] (Conan's), which
    drops the GNU-extensions mark of a standard:
    [str(_cppstd).replace("gnu", "")]. *)
Fixpoint extract_cpp_version (s : string) : string :=
  match s with
  | String "g"%char (String "n"%char (String "u"%char rest)) =>
      extract_cpp_version rest
  | String c rest => String c (extract_cpp_version rest)
  | EmptyString => EmptyString
  end.

(** Modelled from the spec: part of [check_min_cppstd] (Conan's).  The
    year of a standard, as a string: "98" is "1998", "nn" is "20nn". *)
Definition add_millennium (s : string) : string :=
  if String.eqb s "98" then "19" +:+ s else "20" +:+ s.

(** Modelled from the spec: part of [check_min_cppstd] (Conan's).  The
    order of standards, the spec's "< 11": the years compared as
    strings. *)
Definition less_than (lhs rhs : string) : bool :=
  String.ltb (add_millennium (extract_cpp_version lhs))
             (add_millennium (extract_cpp_version rhs)).

(** Modelled from the spec: [check_min_cppstd] is Conan's helper, not
    part of the repository.  The spec: "if the environment explicitly
    configures a C++ standard, require it to be >= 11, failing otherwise"
    with a [ConfigurationError].  Standards are ordered as Conan orders
    them, by year: the "gnu" prefix is dropped, "98" stands for 1998 and
    every other value "nn" for 20nn.  The helper reads the [cppstd]
    setting and nothing else of [self]. *)
Definition check_min_cppstd (cppstd : N) : M unit :=
  λ self,
    match compiler_cppstd (settings self) with
    | None =>
        Raise (ConanInvalidConfiguration
                 "The compiler.cppstd is not defined for this configuration")
    | Some current_cppstd =>
        if less_than current_cppstd (str cppstd)
        then Raise (ConanInvalidConfiguration
                      "Current cppstd is lower than the required C++ standard")
        else Ok (tt, self)
    end.

(** ** The recipe: [validate] *)

(** The dict literal of [_min_compiler_version_default_cxx11]. *)
Definition min_compiler_version_table : gmap string N :=
  {[ "apple-clang" := 99;
     "gcc" := 6;
     "clang" := 6;
     "Visual Studio" := 14;
     "msvc" := 190 ]}.

(** The property [_min_compiler_version_default_cxx11]:
    [{...}.get(str(self.settings.compiler))]. *)
Definition _min_compiler_version_default_cxx11 : M (option N) :=
  λ self, Ok (min_compiler_version_table !! compiler (settings self), self).

(** [validate], with the property it reads through [self] taken as an
    argument (a Python property is looked up on the object). *)
Definition validate_with (min_version : M (option N)) : M unit :=
  (let* cppstd := get_safe_cppstd in
   if truthy cppstd then
     check_min_cppstd 11
   else
     let* version_cxx11_standard_json := min_version in
     if negb (truthy version_cxx11_standard_json) then
       output_warning "Assuming the compiler supports c++11 by default"
     else
       let* version := get_compiler_version in
       if Version_lt_other version version_cxx11_standard_json then
         raise (ConanInvalidConfiguration "Boost.Scope requires C++11")
       else
         ret tt)%hook.

Definition validate : M unit :=
  validate_with _min_compiler_version_default_cxx11.

(** ** [conan.tools.files.copy] and [patch] *)

(** Modelled from the spec: part of [copy] (Conan's), which ignores
    case.  [str.lower] on one ASCII character. *)
Definition lower_char (c : ascii) : ascii :=
  let n := N_of_ascii c in
  if (65 <=? n) && (n <=? 90) then ascii_of_N (n + 32) else c.

(** Modelled from the spec: part of [copy] (Conan's).  [str.lower]. *)
Fixpoint lower (s : string) : string :=
  match s with
  | EmptyString => EmptyString
  | String c s' => String (lower_char c) (lower s')
  end.

(** Modelled from the spec: part of [copy] (Conan's), whose patterns
    are those of Python's [fnmatch].  [fnmatch.fnmatchcase(name, pat)], by
    recursion on the pattern: [*] matches any run of characters (path
    separators included), [?] any one character, every other character
    itself.  The recipe's patterns hold no bracket expression, which is
    left out. *)
Fixpoint fnmatch_pat (pat : string) : string → bool :=
  match pat with
  | EmptyString => λ name, String.eqb name ""
  | String c pat' =>
      if Ascii.eqb c "*" then
        fix star (name : string) : bool :=
          fnmatch_pat pat' name ||
          match name with
          | EmptyString => false
          | String _ name' => star name'
          end
      else if Ascii.eqb c "?" then
        λ name, match name with
                | EmptyString => false
                | String _ name' => fnmatch_pat pat' name'
                end
      else
        λ name, match name with
                | EmptyString => false
                | String d name' => Ascii.eqb c d && fnmatch_pat pat' name'
                end
  end.

(** Modelled from the spec: part of [copy] (Conan's).  [fnmatchcase]
    with the arguments in Python's order. *)
Definition fnmatchcase (name pat : string) : bool := fnmatch_pat pat name.

(** Modelled from the spec: part of [copy] (Conan's).  The test [copy]
    applies to the relative name of each file under [src], with its
    default [ignore_case=True]. *)
Definition matches (pattern name : string) : bool :=
  fnmatchcase (lower name) (lower pattern).

(** Modelled from the spec: part of [copy] (Conan's).  The files of
    [src] a pattern selects. *)
Definition files_to_copy (pattern : string) (src : Tree) : Tree :=
  filter (λ f, matches pattern f.1 = true) src.

(** Modelled from the spec: part of [copy] (Conan's).  A set of files
    written under [dst]; a file already there is replaced. *)
Definition copy_files (files dst : Tree) : Tree := files ∪ dst.

(** Modelled from the spec: [copy] is Conan's helper, not part of the
    repository.  The spec has the hooks copy files "from source root to
    destination" as a "pure side effect, no decision logic".  The detail
    is Conan's: [copy(self, pattern, src, dst)] walks [src] and copies
    every file whose relative name matches [pattern] to the same relative
    name under [dst], replacing a file already there; a pattern that
    matches no file copies nothing and is no error; [src == dst] is
    refused.  The list of copied files it returns is dropped, as the
    recipe drops it. *)
Definition copy (pattern : string) (src dst : Folder) : M unit :=
  λ self,
    if decide (src = dst) then
      Raise (ConanException
               "copy() 'src' and 'dst' arguments must have different folders")
    else
      let files := files_to_copy pattern (folder src self) in
      Ok (tt, set_folder dst (copy_files files (folder dst self)) self).

(** [os.path.join(folder, name)]: a file, as a folder and a name in
    it. *)
Definition os_path_join (f : Folder) (name : string) : Folder * string :=
  (f, name).

Section Patch.

(** The patch tool behind Conan's [patch]: given the text of a patch and
    a tree, the patched tree, or [None] when the text is no patch or a
    hunk does not apply. *)
Context (apply_patch : list Byte.byte → Tree → option Tree).

(** Modelled from the spec: [patch] is Conan's helper, not part of the
    repository.  The spec: it "applies the named patch file to the
    source tree in place" and fails "if the patch does not apply
    cleanly".  [patch(self, patch_file=f)] opens [f] and applies it to
    [self.source_folder].  When there is no file [f] the open fails and
    Python's [FileNotFoundError] goes through, which is none of Conan's
    exceptions; when the file is there and cannot be read as a patch or
    does not apply, [patch] raises [ConanException]. *)
Definition patch (patch_file : Folder * string) : M unit :=
  λ self,
    match folder patch_file.1 self !! patch_file.2 with
    | None => Raise (FileNotFoundError patch_file.2)
    | Some text =>
        match apply_patch text (source_folder self) with
        | None => Raise (ConanException "Failed to apply patch")
        | Some patched => Ok (tt, set_folder SourceFolder patched self)
        end
    end.

(** ** The recipe: [build] *)

Definition build : M unit :=
  let patch_file := os_path_join SourceFolder "conan/1.83_compat.patch" in
  patch patch_file.

End Patch.

(** ** The recipe: [export_sources], [package], [package_id] *)

Definition export_sources : M unit :=
  (let src := RecipeParent in
   copy "LICENSE" src ExportSourcesFolder >>
   copy "include*" src ExportSourcesFolder >>
   copy "conan/1.83_compat.patch" src ExportSourcesFolder)%hook.

Definition package : M unit :=
  (copy "include/*" SourceFolder PackageFolder >>
   copy "LICENSE" SourceFolder PackageFolder)%hook.

(** Modelled from the spec: [info.clear()] is Conan's, not part of the
    repository.  The spec: it "clears all build-configuration-derived
    identity fields" of the package metadata. *)
Definition info_clear (i : Info) : Info :=
  {| info_settings := []; info_options := []; info_requires := [] |}.

Definition package_id : M unit :=
  λ self, Ok (tt, set_info (info_clear (info self)) self).

(** ** Vocabulary of the specification *)

Definition fails {A} (r : result (A * ConanFile)) : Prop :=
  ∃ e, r = Raise e.

(** The spec's two kinds of error. *)
Definition ConfigurationError (e : Exception) : Prop :=
  ∃ msg, e = ConanInvalidConfiguration msg.

Definition PatchError (e : Exception) : Prop :=
  ∃ msg, e = ConanException msg.

(** What a hook hands back, without the state. *)
Definition outcome {A} (r : result (A * ConanFile)) : result A :=
  match r with
  | Ok (a, _) => Ok a
  | Raise e => Raise e
  end.

(** "An explicit C++ standard is configured": the test [validate] makes. *)
Definition standard_configured (self : ConanFile) : bool :=
  truthy (compiler_cppstd (settings self)).

(** "The supplied compiler version is strictly less than the entry". *)
Definition older_than (self : ConanFile) (entry : N) : bool :=
  Version_lt (compiler_version (settings self)) (Version_of_int entry).

(** The value of the [cppstd] setting for the standard C++nn, with or
    without GNU extensions: "14", "gnu14", "98", ... *)
Definition cppstd_value (gnu : bool) (nn : N) : string :=
  (if gnu then "gnu" else "") +:+
  String (ascii_of_N (48 + nn / 10)) (String (ascii_of_N (48 + nn mod 10)) "").

(** The year of the standard C++nn: C++98 is older than C++11. *)
Definition standard_year (nn : N) : N :=
  if nn =? 98 then 1998 else 2000 + nn.

(** The warning of [validate] for a compiler it does not know. *)
Definition assume_warning : Level * string :=
  (Warning, "Assuming the compiler supports c++11 by default").

(** The names [export_sources] stages, and the names [package] packs. *)
Definition exported (name : string) : bool :=
  matches "LICENSE" name || matches "include*" name ||
  matches "conan/1.83_compat.patch" name.

Definition packaged (name : string) : bool :=
  matches "include/*" name || matches "LICENSE" name.

(** What the three copies of [export_sources] leave under the export
    folder, and the two copies of [package] under the package folder. *)
Definition export_tree (root staged : Tree) : Tree :=
  copy_files (files_to_copy "conan/1.83_compat.patch" root)
    (copy_files (files_to_copy "include*" root)
       (copy_files (files_to_copy "LICENSE" root) staged)).

Definition package_tree (source pkg : Tree) : Tree :=
  copy_files (files_to_copy "LICENSE" source)
    (copy_files (files_to_copy "include/*" source) pkg).

(** "The patch applies cleanly" to the source folder of [self], giving
    [patched]: the patch file is there and the tool accepts it. *)
Definition applies_cleanly (apply_patch : list Byte.byte → Tree → option Tree)
    (self : ConanFile) (patched : Tree) : Prop :=
  ∃ text, source_folder self !! "conan/1.83_compat.patch" = Some text ∧
          apply_patch text (source_folder self) = Some patched.

(** ** Sample recipes *)

Definition no_info : Info :=
  {| info_settings := []; info_options := []; info_requires := [] |}.

Definition conanfile (c : string) (v : Version) (std : option string) : ConanFile :=
  {| settings := {| compiler := c; compiler_version := v;
                    compiler_cppstd := std; build_type := "Release" |};
     output := []; recipe_parent := ∅; export_sources_folder := ∅;
     source_folder := ∅; package_folder := ∅; info := no_info |}.

(** gcc 7 with [compiler.cppstd=98]. *)
Definition gcc7_cppstd98 : ConanFile := conanfile "gcc" [7] (Some "98").

(** The first claim as the spec words it, at one recipe object. *)
Definition fails_iff_older_and_unconfigured (self : ConanFile) : Prop :=
  ∀ entry,
    min_compiler_version_table !! compiler (settings self) = Some entry →
    (fails (validate self) ↔
     older_than self entry = true ∧ standard_configured self = false).

(** A source root with a license and a header, and no patch file. *)
Definition root_without_patch : ConanFile :=
  set_folder RecipeParent
    {[ "LICENSE" := [Byte.x42; Byte.x53; Byte.x4c];
       "include/boost/scope/defer.hpp" := [Byte.x23] ]}
    (conanfile "gcc" [12] None).

(** The same root with the patch file. *)
Definition root_with_patch : ConanFile :=
  set_folder RecipeParent
    (<["conan/1.83_compat.patch" := [Byte.x2d; Byte.x2d; Byte.x2d]]>
       (recipe_parent root_without_patch))
    root_without_patch.

(** Part of the tenth claim as it is worded: after a successful
    [export_sources] the staged tree holds the file [build] opens. *)
Definition patch_staged_after_export (self : ConanFile) : Prop :=
  ∀ s1, export_sources self = Ok (tt, s1) →
        is_Some (export_sources_folder s1 !! "conan/1.83_compat.patch").

(** Two builds of the recipe, with the identity the orchestrator derives
    from their settings and requirement. *)
Definition gcc_release : ConanFile :=
  set_info {| info_settings := [("compiler", "gcc"); ("compiler.version", "12");
                                ("build_type", "Release")];
              info_options := [];
              info_requires := ["boost/[>=1.83.0]"] |}
           (conanfile "gcc" [12] None).

Definition msvc_debug : ConanFile :=
  set_info {| info_settings := [("compiler", "msvc"); ("compiler.version", "193");
                                ("build_type", "Debug")];
              info_options := [];
              info_requires := ["boost/[>=1.83.0]"] |}
           {| settings := {| compiler := "msvc"; compiler_version := [193];
                             compiler_cppstd := None; build_type := "Debug" |};
              output := []; recipe_parent := ∅; export_sources_folder := ∅;
              source_folder := ∅; package_folder := ∅; info := no_info |}.

(** Part of the fourth claim as it is worded: [build] fails with a
    [PatchError] exactly when the patch does not apply cleanly. *)
Definition PatchError_iff_not_clean
    (apply_patch : list Byte.byte → Tree → option Tree) (self : ConanFile) : Prop :=
  (∃ e, build apply_patch self = Raise e ∧ PatchError e) ↔
  ¬ ∃ patched, applies_cleanly apply_patch self patched.

(** A patch tool for examples: a text that is not empty rewrites the
    header defer.hpp to that text, an empty text is no patch. *)
Definition sample_patch_tool (text : list Byte.byte) (t : Tree) : option Tree :=
  match text with
  | [] => None
  | _ => Some (<["include/boost/scope/defer.hpp" := text]> t)
  end.

(** A recipe object whose source folder holds the tree of
    [root_with_patch], as after export and hand-over. *)
Definition sources_with_patch : ConanFile :=
  set_folder SourceFolder (recipe_parent root_with_patch)
    (conanfile "gcc" [12] None).

(** A recipe object whose source folder holds the tree of
    [root_without_patch]: a license and a header, no patch file. *)
Definition sources_without_patch : ConanFile :=
  set_folder SourceFolder (recipe_parent root_without_patch)
    (conanfile "gcc" [12] None).

(** * Properties *)

(** ** Versions *)

Lemma strip_zeros_snoc (l : list N) (x : N) :
  (strip_zeros (l ++ [x]) = [] ∧ x = 0) ∨
  (∃ l', strip_zeros (l ++ [x]) = l' ++ [x]).
Proof.
  induction l as [|a l IH]; simpl.
  - destruct x; [left | right; exists []]; done.
  - destruct a; [exact IH | right; eexists (_ :: l); reflexivity].
Qed.

Lemma nonzero_items_cons (x : N) (rest : list N) :
  (nonzero_items (x :: rest) = [] ∧ x = 0) ∨
  (∃ r, nonzero_items (x :: rest) = x :: r).
Proof.
  unfold nonzero_items. simpl rev.
  destruct (strip_zeros_snoc (rev rest) x) as [[-> ->]|[l' ->]].
  - by left.
  - right. exists (rev l'). by rewrite rev_app_distr.
Qed.

(** Against an int, only the leading item of a version counts. *)
Lemma Version_lt_int (x : N) (rest : list N) (m : N) :
  0 < m → Version_lt (x :: rest) (Version_of_int m) = (x <? m).
Proof.
  intros Hm. unfold Version_lt, Version_of_int.
  assert (nonzero_items [m] = [m]) as -> by (destruct m; [lia | done]).
  destruct (nonzero_items_cons x rest) as [[-> ->]|[r ->]]; simpl.
  - symmetry. by apply N.ltb_lt.
  - destruct (x <? m) eqn:Hx; [done |].
    destruct (m <? x); [done |]. by destruct r.
Qed.

(** ** The table *)

Lemma table_lookup_Some (c : string) (entry : N) :
  min_compiler_version_table !! c = Some entry →
  (c, entry) ∈ [("apple-clang", 99); ("gcc", 6); ("clang", 6);
                ("Visual Studio", 14); ("msvc", 190)].
Proof.
  unfold min_compiler_version_table. intros H.
  repeat (apply lookup_insert_Some in H as [[<- <-]|[_ H]];
          [set_solver |]).
  apply lookup_singleton_Some in H as [<- <-]. set_solver.
Qed.

Lemma table_entry_truthy (c : string) (entry : N) :
  min_compiler_version_table !! c = Some entry → truthy (Some entry) = true.
Proof.
  intros H%table_lookup_Some.
  repeat (apply elem_of_cons in H as [[= -> ->]|H]; [done |]).
  by apply elem_of_nil in H.
Qed.

(** For a compiler of the table, "older than the entry" reads off the
    leading item of the version. *)
Lemma older_than_leading (self : ConanFile) (x : N) (rest : list N) (entry : N) :
  compiler_version (settings self) = x :: rest →
  min_compiler_version_table !! compiler (settings self) = Some entry →
  older_than self entry = (x <? entry).
Proof.
  intros Hv Hentry. unfold older_than. rewrite Hv.
  apply Version_lt_int.
  apply table_lookup_Some in Hentry.
  repeat (apply elem_of_cons in Hentry as [[= _ ->]|Hentry]; [lia |]).
  by apply elem_of_nil in Hentry.
Qed.

(** ** [validate], branch by branch *)

Lemma validate_with_configured mv (self : ConanFile) :
  standard_configured self = true →
  validate_with mv self = check_min_cppstd 11 self.
Proof.
  unfold standard_configured. intros H.
  unfold validate_with, bind, get_safe_cppstd. by rewrite H.
Qed.

Lemma check_min_cppstd_Some (self : ConanFile) (std : string) :
  compiler_cppstd (settings self) = Some std →
  check_min_cppstd 11 self =
    if less_than std (str 11)
    then Raise (ConanInvalidConfiguration
                  "Current cppstd is lower than the required C++ standard")
    else Ok (tt, self).
Proof. unfold check_min_cppstd. by intros ->. Qed.

Lemma validate_unknown_compiler (self : ConanFile) :
  standard_configured self = false →
  min_compiler_version_table !! compiler (settings self) = None →
  validate self = output_warning assume_warning.2 self.
Proof.
  unfold standard_configured. intros H Hnone.
  unfold validate, validate_with, bind, get_safe_cppstd,
    _min_compiler_version_default_cxx11.
  by rewrite H, Hnone.
Qed.

Lemma validate_known_compiler (self : ConanFile) (entry : N) :
  standard_configured self = false →
  min_compiler_version_table !! compiler (settings self) = Some entry →
  validate self =
    if older_than self entry
    then Raise (ConanInvalidConfiguration "Boost.Scope requires C++11")
    else Ok (tt, self).
Proof.
  unfold standard_configured. intros H Hsome.
  pose proof (table_entry_truthy _ _ Hsome) as Ht.
  unfold validate, validate_with, bind, get_safe_cppstd,
    _min_compiler_version_default_cxx11, get_compiler_version.
  rewrite H, Hsome, Ht. simpl. unfold older_than.
  by destruct (Version_lt _ _).
Qed.

Lemma standard_configured_inv (self : ConanFile) :
  standard_configured self = true →
  ∃ std, compiler_cppstd (settings self) = Some std ∧ truthy std = true.
Proof.
  unfold standard_configured.
  destruct (compiler_cppstd (settings self)) as [std|]; [eauto | done].
Qed.

(** ** Standards *)

Lemma below_100 (nn : N) :
  nn < 100 → nn ∈ (N.of_nat <$> seq 0 100).
Proof.
  intros H. apply list_elem_of_fmap. exists (N.to_nat nn). split.
  - by rewrite N2Nat.id.
  - apply list_elem_of_In, in_seq. lia.
Qed.

(** On the values of the [cppstd] setting, the string comparison of
    [check_min_cppstd] is the comparison of the standards' years. *)
Lemma less_than_cppstd_value (gnu : bool) (nn : N) :
  nn < 100 →
  less_than (cppstd_value gnu nn) (str 11) = (standard_year nn <? 2011).
Proof.
  intros H%below_100.
  assert (Forall (λ n, less_than (cppstd_value gnu n) (str 11)
                       = (standard_year n <? 2011))
                 (N.of_nat <$> seq 0 100)) as Hall.
  { apply (bool_decide_unpack _). by destruct gnu; vm_compute. }
  rewrite Forall_forall in Hall. by apply Hall.
Qed.

Lemma cppstd_value_truthy (gnu : bool) (nn : N) :
  truthy (Some (cppstd_value gnu nn)) = true.
Proof. by destruct gnu. Qed.

(** ** Claims on [validate] *)

(** C1, as the spec words it, fails: gcc is in the table with entry 6,
    version 7 is not older, an explicit standard (C++98) is configured,
    and [validate] raises all the same. *)
Lemma gcc7_cppstd98_refutes :
  min_compiler_version_table !! compiler (settings gcc7_cppstd98) = Some 6 ∧
  older_than gcc7_cppstd98 6 = false ∧
  standard_configured gcc7_cppstd98 = true ∧
  validate gcc7_cppstd98
    = Raise (ConanInvalidConfiguration
               "Current cppstd is lower than the required C++ standard") ∧
  ¬ fails_iff_older_and_unconfigured gcc7_cppstd98.
Proof.
  assert (min_compiler_version_table !! compiler (settings gcc7_cppstd98)
          = Some 6) as Hgcc by (by vm_compute).
  do 4 (split; [by vm_compute |]).
  intros H. destruct (H 6 Hgcc) as [Hfail _].
  destruct Hfail as [Hold _]; [by eexists | discriminate Hold].
Qed.

(** C1 (amended): for a compiler that is in the table, [validate] fails
    if and only if either no explicit standard is configured and the
    compiler version is strictly less than the table entry, or an explicit
    standard is configured and it is older than C++11; every failure is a
    [ConfigurationError]. *)
Theorem validate_fails_iff (self : ConanFile) (entry : N) :
  min_compiler_version_table !! compiler (settings self) = Some entry →
  (fails (validate self) ↔
     (standard_configured self = false ∧ older_than self entry = true) ∨
     (∃ std, compiler_cppstd (settings self) = Some std ∧
             truthy std = true ∧ less_than std (str 11) = true)) ∧
  (∀ e, validate self = Raise e → ConfigurationError e).
Proof.
  intros Hentry.
  destruct (standard_configured self) eqn:Hstd.
  - destruct (standard_configured_inv _ Hstd) as (std & Hcpp & Htrue).
    unfold validate. rewrite (validate_with_configured _ _ Hstd).
    rewrite (check_min_cppstd_Some _ _ Hcpp).
    destruct (less_than std (str 11)) eqn:Hlt; split.
    + split; [intros _; right; eauto | intros _; by eexists].
    + intros e [= <-]. by eexists.
    + split.
      * by intros [e ?].
      * intros [[? _]|(std' & Hcpp' & _ & Hlt')]; [done |].
        rewrite Hcpp in Hcpp'. injection Hcpp' as <-. congruence.
    + by intros e ?.
  - rewrite (validate_known_compiler _ _ Hstd Hentry).
    assert (∀ std, compiler_cppstd (settings self) = Some std →
                   truthy std = true → False) as Hnone.
    { intros std Hcpp Htrue. unfold standard_configured in Hstd.
      rewrite Hcpp in Hstd. unfold truthy, Truthy_option in Hstd.
      congruence. }
    destruct (older_than self entry) eqn:Hold; split.
    + split; [intros _; by left | intros _; by eexists].
    + intros e [= <-]. by eexists.
    + split.
      * by intros [e ?].
      * intros [[_ ?]|(std & Hcpp & Htrue & _)]; [done | by destruct (Hnone std)].
    + by intros e ?.
Qed.

Lemma validate_fails_iff_witness :
  min_compiler_version_table !! "gcc" = Some 6 ∧
  fails (validate (conanfile "gcc" [5; 4] None)).
Proof.
  split; [by vm_compute |].
  apply (validate_fails_iff (conanfile "gcc" [5; 4] None) 6); [by vm_compute |].
  left. by vm_compute.
Defined.

(** C2: with the explicit standard C++nn configured (with or without
    GNU extensions), [validate] succeeds when C++nn is C++11 or newer
    and raises a [ConfigurationError] when it is older, whatever the
    compiler and its version. *)
Theorem validate_explicit_standard (self : ConanFile) (gnu : bool) (nn : N) :
  nn < 100 →
  compiler_cppstd (settings self) = Some (cppstd_value gnu nn) →
  (2011 ≤ standard_year nn → validate self = Ok (tt, self)) ∧
  (standard_year nn < 2011 →
   ∃ msg, validate self = Raise (ConanInvalidConfiguration msg)).
Proof.
  intros Hnn Hcpp.
  assert (standard_configured self = true) as Hstd.
  { unfold standard_configured. rewrite Hcpp. apply cppstd_value_truthy. }
  unfold validate. rewrite (validate_with_configured _ _ Hstd).
  rewrite (check_min_cppstd_Some _ _ Hcpp).
  rewrite (less_than_cppstd_value _ _ Hnn).
  split; intros Hyear.
  - by apply N.ltb_ge in Hyear as ->.
  - apply N.ltb_lt in Hyear as ->. by eexists.
Qed.

Lemma validate_explicit_standard_witness :
  validate (conanfile "gcc" [4; 8] (Some "gnu14"))
    = Ok (tt, conanfile "gcc" [4; 8] (Some "gnu14")) ∧
  ∃ msg, validate (conanfile "clang" [17] (Some "98"))
         = Raise (ConanInvalidConfiguration msg).
Proof.
  split.
  - apply (validate_explicit_standard _ true 14); [lia | reflexivity | ].
    by vm_compute.
  - apply (validate_explicit_standard _ false 98); [lia | reflexivity | ].
    by vm_compute.
Defined.

(** C3: for a compiler that is not in the table, with no explicit
    standard configured, [validate] succeeds whatever the version, and
    all it does is emit the warning. *)
Theorem validate_unknown_compiler_warns (self : ConanFile) :
  min_compiler_version_table !! compiler (settings self) = None →
  standard_configured self = false →
  validate self = Ok (tt, set_output (output self ++ [assume_warning]) self).
Proof.
  intros Hnone Hstd. by rewrite (validate_unknown_compiler _ Hstd Hnone).
Qed.

Lemma validate_unknown_compiler_warns_witness :
  validate (conanfile "unknown-compiler" [1] None)
  = Ok (tt, set_output [assume_warning] (conanfile "unknown-compiler" [1] None)).
Proof.
  apply (validate_unknown_compiler_warns (conanfile "unknown-compiler" [1] None));
    by vm_compute.
Defined.

(** C8: with no explicit standard, gcc 5 is refused (5 < 6), gcc 7 is
    accepted, and "unknown-compiler" 1 is accepted with a warning;
    whatever the rest of the recipe object holds. *)
Theorem validate_examples (bt : string) (out : list (Level * string))
    (rp es sf pf : Tree) (i : Info) :
  let self c v :=
    {| settings := {| compiler := c; compiler_version := v;
                      compiler_cppstd := None; build_type := bt |};
       output := out; recipe_parent := rp; export_sources_folder := es;
       source_folder := sf; package_folder := pf; info := i |} in
  validate (self "gcc" [5])
    = Raise (ConanInvalidConfiguration "Boost.Scope requires C++11") ∧
  validate (self "gcc" [7]) = Ok (tt, self "gcc" [7]) ∧
  validate (self "unknown-compiler" [1])
    = Ok (tt, set_output (out ++ [assume_warning])
                         (self "unknown-compiler" [1])).
Proof.
  intros self. split; [| split].
  - by rewrite (validate_known_compiler (self "gcc" [5]) 6).
  - by rewrite (validate_known_compiler (self "gcc" [7]) 6).
  - by rewrite (validate_unknown_compiler (self "unknown-compiler" [1])).
Qed.

(** C9: when an explicit standard is configured, [validate] is the
    standard check alone: the outcome is the same with any property in
    place of the table lookup (one that raises included) and for any
    compiler and version, and a successful run leaves the recipe object,
    its output included, as it was (no warning). *)
Theorem validate_standard_shadows_table
    (mv : M (option N)) (self self' : ConanFile) :
  standard_configured self = true →
  compiler_cppstd (settings self') = compiler_cppstd (settings self) →
  validate self = check_min_cppstd 11 self ∧
  outcome (validate_with mv self') = outcome (validate self) ∧
  (∀ u s1, validate self = Ok (u, s1) → s1 = self).
Proof.
  intros Hstd Hsame.
  assert (standard_configured self' = true) as Hstd'.
  { unfold standard_configured in *. by rewrite Hsame. }
  unfold validate. rewrite !validate_with_configured by done.
  destruct (standard_configured_inv _ Hstd) as (std & Hcpp & _).
  rewrite (check_min_cppstd_Some self std), (check_min_cppstd_Some self' std)
    by congruence.
  split; [done |].
  destruct (less_than std (str 11)); split; try done.
  by intros u s1 [= _ <-].
Qed.

Lemma validate_standard_shadows_table_witness :
  outcome (validate_with (raise (ConanException "no table"))
                         (conanfile "clang" [3] (Some "17")))
  = outcome (validate (conanfile "gcc" [5] (Some "17"))).
Proof.
  apply (validate_standard_shadows_table (raise (ConanException "no table"))
           (conanfile "gcc" [5] (Some "17")) (conanfile "clang" [3] (Some "17")));
    reflexivity.
Defined.

(** ** Patterns *)

Lemma fnmatch_star_any (name : string) : fnmatch_pat "*" name = true.
Proof.
  induction name as [|c name IH]; [done |].
  simpl in *. exact IH.
Qed.

Lemma fnmatch_pat_literal (c d : ascii) (pat name : string) :
  Ascii.eqb c "*" = false → Ascii.eqb c "?" = false →
  fnmatch_pat (String c pat) (String d name)
  = Ascii.eqb c d && fnmatch_pat pat name.
Proof. intros H1 H2. simpl. by rewrite H1, H2. Qed.

Lemma matches_include (rest : string) :
  matches "include*" ("include/" +:+ rest) = true ∧
  matches "include/*" ("include/" +:+ rest) = true.
Proof.
  unfold matches, fnmatchcase.
  change (lower "include*") with "include*".
  change (lower "include/*") with "include/*".
  change (lower ("include/" +:+ rest)) with ("include/" +:+ lower rest).
  split.
  - repeat (rewrite fnmatch_pat_literal by done; simpl andb).
    apply fnmatch_star_any.
  - repeat (rewrite fnmatch_pat_literal by done; simpl andb).
    apply fnmatch_star_any.
Qed.

(** ** [copy] *)

Lemma copy_Ok (pattern : string) (src dst : Folder) (self : ConanFile) :
  src ≠ dst →
  copy pattern src dst self
  = Ok (tt, set_folder dst
              (copy_files (files_to_copy pattern (folder src self))
                          (folder dst self)) self).
Proof. intros Hne. unfold copy. by rewrite decide_False. Qed.

(** A name under [dst] after a copy: the file of [src] when the pattern
    selects one, what was there before otherwise. *)
Lemma lookup_copy_files (pattern : string) (src dst : Tree) (name : string) :
  copy_files (files_to_copy pattern src) dst !! name
  = if matches pattern name
    then match src !! name with
         | Some content => Some content
         | None => dst !! name
         end
    else dst !! name.
Proof.
  unfold copy_files, files_to_copy.
  rewrite lookup_union, map_lookup_filter. simpl.
  destruct (src !! name) as [content|]; simpl.
  - destruct (matches pattern name) eqn:Hm.
    + rewrite option_guard_True by done. simpl. by destruct (dst !! name).
    + rewrite option_guard_False by congruence. simpl.
      by rewrite (left_id_L None _).
  - rewrite (left_id_L None _). by destruct (matches pattern name).
Qed.

Lemma folder_set_folder (f : Folder) (t : Tree) (self : ConanFile) :
  folder f (set_folder f t self) = t.
Proof. by destruct f. Qed.

Lemma folder_set_folder_ne (f g : Folder) (t : Tree) (self : ConanFile) :
  f ≠ g → folder f (set_folder g t self) = folder f self.
Proof. by destruct f, g. Qed.

Lemma export_sources_folder_set (t : Tree) (self : ConanFile) :
  export_sources_folder (set_folder ExportSourcesFolder t self) = t.
Proof. reflexivity. Qed.

Lemma set_folder_twice (f : Folder) (t t' : Tree) (self : ConanFile) :
  set_folder f t (set_folder f t' self) = set_folder f t self.
Proof. by destruct f. Qed.

(** ** [export_sources] and [package], as functions on trees *)

Lemma export_sources_Ok (self : ConanFile) :
  export_sources self
  = Ok (tt, set_folder ExportSourcesFolder
              (export_tree (recipe_parent self) (export_sources_folder self))
              self).
Proof.
  unfold export_sources, bind.
  rewrite !copy_Ok by done.
  rewrite !folder_set_folder, !folder_set_folder_ne, !set_folder_twice by done.
  reflexivity.
Qed.

Lemma package_Ok (self : ConanFile) :
  package self
  = Ok (tt, set_folder PackageFolder
              (package_tree (source_folder self) (package_folder self)) self).
Proof.
  unfold package, bind.
  rewrite !copy_Ok by done.
  rewrite !folder_set_folder, !folder_set_folder_ne, !set_folder_twice by done.
  reflexivity.
Qed.

Lemma lookup_export_tree (root staged : Tree) (name : string) :
  export_tree root staged !! name
  = if exported name
    then match root !! name with
         | Some content => Some content
         | None => staged !! name
         end
    else staged !! name.
Proof.
  unfold export_tree, exported. rewrite !lookup_copy_files.
  destruct (matches "LICENSE" name), (matches "include*" name),
    (matches "conan/1.83_compat.patch" name), (root !! name); done.
Qed.

Lemma lookup_package_tree (source pkg : Tree) (name : string) :
  package_tree source pkg !! name
  = if packaged name
    then match source !! name with
         | Some content => Some content
         | None => pkg !! name
         end
    else pkg !! name.
Proof.
  unfold package_tree, packaged. rewrite !lookup_copy_files.
  destruct (matches "LICENSE" name), (matches "include/*" name),
    (source !! name); done.
Qed.

(** ** Claims on the file hooks *)

Section Build.

Context (apply_patch : list Byte.byte → Tree → option Tree).

Lemma build_unfold (self : ConanFile) :
  build apply_patch self
  = match source_folder self !! "conan/1.83_compat.patch" with
    | None => Raise (FileNotFoundError "conan/1.83_compat.patch")
    | Some text =>
        match apply_patch text (source_folder self) with
        | None => Raise (ConanException "Failed to apply patch")
        | Some patched => Ok (tt, set_folder SourceFolder patched self)
        end
    end.
Proof. reflexivity. Qed.

(** C4 (amended): [build] applies the one patch file
    conan/1.83_compat.patch of the source folder to the source folder;
    when that file is in the source folder, [build] fails with a
    [PatchError] exactly when the patch does not apply cleanly, and it
    fails in no other way; on success the recipe object differs from the
    one before in its source folder only, which holds the patched
    tree. *)
Theorem build_applies_patch (self : ConanFile) (text : list Byte.byte) :
  source_folder self !! "conan/1.83_compat.patch" = Some text →
  ((∃ e, build apply_patch self = Raise e ∧ PatchError e) ↔
     apply_patch text (source_folder self) = None) ∧
  (∀ e, build apply_patch self = Raise e → PatchError e) ∧
  (∀ patched,
     apply_patch text (source_folder self) = Some patched →
     build apply_patch self = Ok (tt, set_folder SourceFolder patched self)) ∧
  (∀ u self',
     build apply_patch self = Ok (u, self') →
     ∃ patched, apply_patch text (source_folder self) = Some patched ∧
                self' = set_folder SourceFolder patched self).
Proof.
  intros Hfile. rewrite build_unfold, Hfile.
  destruct (apply_patch text (source_folder self)) as [patched|] eqn:Hrun.
  - split; [| split; [| split]].
    + split; [by intros (e & ? & _) | done].
    + by intros e ?.
    + by intros patched' [= <-].
    + intros u self' [= <- <-]. eauto.
  - split; [| split; [| split]].
    + split; [done |]. intros _. eexists. split; [done | by eexists].
    + intros e [= <-]. by eexists.
    + done.
    + by intros u self' ?.
Qed.

End Build.

(** C4, as it is worded, fails: in a source folder without
    conan/1.83_compat.patch no patch applies, cleanly or not, and
    [build] fails with [FileNotFoundError], which is no [PatchError]. *)
Lemma build_without_patch_file_refutes :
  source_folder sources_without_patch !! "conan/1.83_compat.patch" = None ∧
  build sample_patch_tool sources_without_patch
    = Raise (FileNotFoundError "conan/1.83_compat.patch") ∧
  ¬ PatchError (FileNotFoundError "conan/1.83_compat.patch") ∧
  ¬ PatchError_iff_not_clean sample_patch_tool sources_without_patch.
Proof.
  assert (build sample_patch_tool sources_without_patch
          = Raise (FileNotFoundError "conan/1.83_compat.patch")) as Hrun
    by (by vm_compute).
  split; [by vm_compute |]. split; [exact Hrun |].
  split; [by intros [msg ?] |].
  intros [_ Hiff]. destruct Hiff as (e & He & msg & ->).
  - intros (patched & text & Hfile & _). revert Hfile. by vm_compute.
  - rewrite Hrun in He. discriminate He.
Qed.

Lemma build_applies_patch_witness :
  source_folder sources_with_patch !! "conan/1.83_compat.patch"
    = Some [Byte.x2d; Byte.x2d; Byte.x2d] ∧
  ∃ patched,
    build sample_patch_tool sources_with_patch
    = Ok (tt, set_folder SourceFolder patched sources_with_patch) ∧
    patched !! "include/boost/scope/defer.hpp"
    = Some [Byte.x2d; Byte.x2d; Byte.x2d].
Proof.
  split; [by vm_compute |].
  eexists. split.
  - apply (build_applies_patch sample_patch_tool sources_with_patch
             [Byte.x2d; Byte.x2d; Byte.x2d]); [by vm_compute | reflexivity].
  - by vm_compute.
Defined.

(** C5: a license file or a file under include/ of the source root is,
    after [export_sources] and then [package] on the exported tree, in
    the package folder under the same name with the same content. *)
Theorem export_then_package_roundtrip
    (self : ConanFile) (name : string) (content : list Byte.byte) :
  recipe_parent self !! name = Some content →
  name = "LICENSE" ∨ (∃ rest, name = "include/" +:+ rest) →
  ∃ s1, export_sources self = Ok (tt, s1) ∧
        ∀ s2, source_folder s2 = export_sources_folder s1 →
              ∃ s3, package s2 = Ok (tt, s3) ∧
                    package_folder s3 !! name = Some content.
Proof.
  intros Hfile Hname.
  assert (exported name = true ∧ packaged name = true) as [Hexp Hpkg].
  { unfold exported, packaged.
    destruct Hname as [-> | [rest ->]]; [done |].
    destruct (matches_include rest) as [-> ->].
    split; [by rewrite orb_true_r | done]. }
  eexists. split; [apply export_sources_Ok |].
  intros s2 Hs2. eexists. split; [apply package_Ok |].
  simpl. rewrite lookup_package_tree, Hpkg, Hs2. simpl.
  by rewrite lookup_export_tree, Hexp, Hfile.
Qed.

Lemma export_then_package_roundtrip_witness :
  recipe_parent root_with_patch !! "include/boost/scope/defer.hpp"
    = Some [Byte.x23] ∧
  ∃ s1, export_sources root_with_patch = Ok (tt, s1) ∧
        ∀ s2, source_folder s2 = export_sources_folder s1 →
              ∃ s3, package s2 = Ok (tt, s3) ∧
                    package_folder s3 !! "include/boost/scope/defer.hpp"
                    = Some [Byte.x23].
Proof.
  split; [by vm_compute |].
  apply (export_then_package_roundtrip root_with_patch);
    [by vm_compute | right; by exists "boost/scope/defer.hpp"].
Defined.

(** C6: [export_sources] returns nothing and never raises; it changes
    the export folder only, where it puts the files of the source root
    that match LICENSE, include* or conan/1.83_compat.patch, each under
    its name and with its content, and nothing else. *)
Theorem export_sources_three_groups (self : ConanFile) :
  ∃ staged,
    export_sources self = Ok (tt, set_folder ExportSourcesFolder staged self) ∧
    ∀ name,
      staged !! name
      = if matches "LICENSE" name || matches "include*" name ||
           matches "conan/1.83_compat.patch" name
        then match recipe_parent self !! name with
             | Some content => Some content
             | None => export_sources_folder self !! name
             end
        else export_sources_folder self !! name.
Proof.
  eexists. split; [apply export_sources_Ok |].
  intros name. apply lookup_export_tree.
Qed.

(** C7: [package_id] leaves an identity record with every field
    cleared, so any two builds end with equal records; nothing else of
    the recipe object changes. *)
Theorem package_id_independent (self1 self2 : ConanFile) :
  ∃ s1 s2,
    package_id self1 = Ok (tt, s1) ∧ package_id self2 = Ok (tt, s2) ∧
    info s1 = info s2 ∧
    info s1 = {| info_settings := []; info_options := []; info_requires := [] |} ∧
    s1 = set_info (info s1) self1 ∧ s2 = set_info (info s2) self2.
Proof. by do 2 eexists. Qed.

Example package_id_gcc_msvc :
  info gcc_release ≠ info msvc_debug ∧
  outcome (package_id gcc_release) = Ok tt ∧
  (∀ s1 s2, package_id gcc_release = Ok (tt, s1) →
            package_id msvc_debug = Ok (tt, s2) → info s1 = info s2).
Proof.
  split; [done |]. split; [done |].
  by intros s1 s2 [= <-] [= <-].
Qed.

(** C10, as it is worded, fails: exporting a source root that has no
    conan/1.83_compat.patch succeeds and stages no such file, and
    [build] on the exported tree finds no file to open. *)
Lemma root_without_patch_refutes :
  (∃ s1, export_sources root_without_patch = Ok (tt, s1) ∧
         export_sources_folder s1 !! "conan/1.83_compat.patch" = None ∧
         ∀ apply_patch s2,
           source_folder s2 = export_sources_folder s1 →
           build apply_patch s2
           = Raise (FileNotFoundError "conan/1.83_compat.patch")) ∧
  ¬ patch_staged_after_export root_without_patch.
Proof.
  split.
  - eexists. split; [apply export_sources_Ok |].
    rewrite export_sources_folder_set.
    assert (export_tree (recipe_parent root_without_patch)
                        (export_sources_folder root_without_patch)
              !! "conan/1.83_compat.patch" = None) as Hnone by (by vm_compute).
    split; [exact Hnone |].
    intros apply_patch s2 Hs2. by rewrite build_unfold, Hs2, Hnone.
  - intros H. destruct (H _ (export_sources_Ok _)) as [text Htext].
    revert Htext. by vm_compute.
Qed.

(** C10 (amended): the name [build] opens in the source folder is the
    third pattern of [export_sources]; so when the source root has that
    file, the exported tree has it with the same content, and [build] on
    that tree gets as far as running the patch tool on it; what
    [package] puts into the package folder is only files of the source
    folder that match include/* or LICENSE, never the patch file: a file
    of the package folder after [package] is one of those or was there
    before, and the entry of conan/1.83_compat.patch is as it was. *)
Theorem patch_staged_not_packaged
    (self after : ConanFile) (text : list Byte.byte) :
  recipe_parent self !! "conan/1.83_compat.patch" = Some text →
  (∃ name,
     (∀ apply_patch,
        build apply_patch = patch apply_patch (os_path_join SourceFolder name)) ∧
     export_sources
     = (copy "LICENSE" RecipeParent ExportSourcesFolder >>
        copy "include*" RecipeParent ExportSourcesFolder >>
        copy name RecipeParent ExportSourcesFolder)%hook) ∧
  (∃ s1, export_sources self = Ok (tt, s1) ∧
         export_sources_folder s1 !! "conan/1.83_compat.patch" = Some text ∧
         ∀ apply_patch s2,
           source_folder s2 = export_sources_folder s1 →
           build apply_patch s2
           = match apply_patch text (source_folder s2) with
             | None => Raise (ConanException "Failed to apply patch")
             | Some patched => Ok (tt, set_folder SourceFolder patched s2)
             end) ∧
  (∃ s3, package after = Ok (tt, s3) ∧
         (∀ name content,
            package_folder s3 !! name = Some content →
            ((matches "include/*" name || matches "LICENSE" name) = true ∧
             source_folder after !! name = Some content) ∨
            package_folder after !! name = Some content) ∧
         package_folder s3 !! "conan/1.83_compat.patch"
         = package_folder after !! "conan/1.83_compat.patch").
Proof.
  intros Hfile. split; [by eexists | split].
  - eexists. split; [apply export_sources_Ok |].
    assert (export_tree (recipe_parent self) (export_sources_folder self)
              !! "conan/1.83_compat.patch" = Some text) as Hstaged.
    { rewrite lookup_export_tree, Hfile. by vm_compute. }
    split; [exact Hstaged |].
    intros apply_patch s2 Hs2. rewrite build_unfold.
    simpl in Hs2. by rewrite Hs2, Hstaged.
  - eexists. split; [apply package_Ok |]. simpl. split.
    + intros name content. rewrite lookup_package_tree.
      fold (packaged name).
      destruct (packaged name); [| by right].
      destruct (source_folder after !! name); [| by right].
      intros [= ->]. by left.
    + rewrite lookup_package_tree.
      by assert (packaged "conan/1.83_compat.patch" = false) as ->
        by (by vm_compute).
Qed.

Lemma patch_staged_not_packaged_witness :
  recipe_parent root_with_patch !! "conan/1.83_compat.patch"
    = Some [Byte.x2d; Byte.x2d; Byte.x2d] ∧
  ∃ s1, export_sources root_with_patch = Ok (tt, s1) ∧
        export_sources_folder s1 !! "conan/1.83_compat.patch"
        = Some [Byte.x2d; Byte.x2d; Byte.x2d].
Proof.
  split; [by vm_compute |].
  destruct (patch_staged_not_packaged root_with_patch root_with_patch
              [Byte.x2d; Byte.x2d; Byte.x2d]) as (_ & (s1 & H1 & H2 & _) & _);
    [by vm_compute |].
  by exists s1.
Defined.

(** * Further properties of the hooks *)

(** ** [validate]: outcomes and what it reads *)

(** X1: [validate] ends in one of three ways: it returns and leaves the
    recipe object as it was, it returns with the one warning appended to
    the output and nothing else changed, or it raises
    [ConanInvalidConfiguration]; it never raises anything else and never
    touches settings, folders or [info]. *)
Theorem validate_outcomes (self : ConanFile) :
  validate self = Ok (tt, self) ∨
  validate self = Ok (tt, set_output (output self ++ [assume_warning]) self) ∨
  (∃ msg, validate self = Raise (ConanInvalidConfiguration msg)).
Proof.
  destruct (standard_configured self) eqn:Hstd.
  - destruct (standard_configured_inv _ Hstd) as (std & Hcpp & _).
    unfold validate. rewrite (validate_with_configured _ _ Hstd).
    rewrite (check_min_cppstd_Some _ _ Hcpp).
    destruct (less_than std (str 11)); [right; right; by eexists | by left].
  - destruct (min_compiler_version_table !! compiler (settings self))
      as [entry|] eqn:Hentry.
    + rewrite (validate_known_compiler _ _ Hstd Hentry).
      destruct (older_than self entry); [right; right; by eexists | by left].
    + rewrite (validate_unknown_compiler _ Hstd Hentry). right. by left.
Qed.

Lemma output_grows (self : ConanFile) (line : Level * string) :
  output self ≠ output self ++ [line].
Proof.
  intros H. apply (f_equal length) in H.
  rewrite length_app in H. simpl in H. lia.
Qed.

(** X2: [validate] emits the warning exactly when no explicit standard
    is configured and the compiler's name is not a key of the table (no
    entry of the table is 0, so the test [not entry] never takes a
    compiler of the table for an unknown one). *)
Theorem validate_warns_iff (self : ConanFile) :
  (∃ s1, validate self = Ok (tt, s1) ∧ output s1 ≠ output self) ↔
  standard_configured self = false ∧
  min_compiler_version_table !! compiler (settings self) = None.
Proof.
  split.
  - intros (s1 & Hrun & Hout).
    destruct (standard_configured self) eqn:Hstd.
    + destruct (standard_configured_inv _ Hstd) as (std & Hcpp & _).
      unfold validate in Hrun.
      rewrite (validate_with_configured _ _ Hstd) in Hrun.
      rewrite (check_min_cppstd_Some _ _ Hcpp) in Hrun.
      destruct (less_than std (str 11)); [done |].
      injection Hrun as <-. done.
    + split; [done |].
      destruct (min_compiler_version_table !! compiler (settings self))
        as [entry|] eqn:Hentry; [| done].
      rewrite (validate_known_compiler _ _ Hstd Hentry) in Hrun.
      destruct (older_than self entry); [done |].
      injection Hrun as <-. done.
  - intros [Hstd Hnone]. eexists. split.
    + apply (validate_unknown_compiler _ Hstd Hnone).
    + simpl. intros H. symmetry in H. by apply output_grows in H.
Qed.

(** X3: the outcome of [validate] is a function of the compiler's name,
    its version and the configured standard: the build type, the
    folders, [info] and the output so far have no part in it. *)
Theorem validate_reads_compiler_only (self self' : ConanFile) :
  compiler (settings self') = compiler (settings self) →
  compiler_version (settings self') = compiler_version (settings self) →
  compiler_cppstd (settings self') = compiler_cppstd (settings self) →
  outcome (validate self') = outcome (validate self).
Proof.
  intros Hc Hv Hstd.
  assert (standard_configured self' = standard_configured self) as Hconf
    by (unfold standard_configured; by rewrite Hstd).
  destruct (standard_configured self) eqn:Hs.
  - destruct (standard_configured_inv _ Hs) as (std & Hcpp & _).
    unfold validate. rewrite !validate_with_configured by done.
    rewrite (check_min_cppstd_Some self std), (check_min_cppstd_Some self' std)
      by congruence.
    by destruct (less_than std (str 11)).
  - destruct (min_compiler_version_table !! compiler (settings self))
      as [entry|] eqn:Hentry.
    + rewrite (validate_known_compiler self entry),
        (validate_known_compiler self' entry) by congruence.
      unfold older_than. rewrite Hv.
      by destruct (Version_lt _ _).
    + rewrite (validate_unknown_compiler self),
        (validate_unknown_compiler self') by congruence.
      done.
Qed.

Lemma validate_reads_compiler_only_witness :
  outcome (validate msvc_debug)
  = outcome (validate (conanfile "msvc" [193] None)).
Proof.
  apply (validate_reads_compiler_only (conanfile "msvc" [193] None) msvc_debug);
    reflexivity.
Defined.

(** ** [validate]: the version test *)

(** X4: with no explicit standard, for a compiler of the table only the
    leading item of the version decides: [validate] fails exactly when
    it is below the entry, whatever the minor and patch items. *)
Theorem validate_major_only
    (self : ConanFile) (x : N) (rest : list N) (entry : N) :
  standard_configured self = false →
  min_compiler_version_table !! compiler (settings self) = Some entry →
  compiler_version (settings self) = x :: rest →
  (fails (validate self) ↔ x < entry).
Proof.
  intros Hstd Hentry Hv.
  rewrite (validate_known_compiler _ _ Hstd Hentry).
  rewrite (older_than_leading _ _ _ _ Hv Hentry).
  destruct (x <? entry) eqn:Hx.
  - apply N.ltb_lt in Hx. split; [done | intros _; by eexists].
  - apply N.ltb_ge in Hx. split; [by intros [e ?] | lia].
Qed.

Lemma validate_major_only_witness :
  fails (validate (conanfile "clang" [5; 9; 9] None)) ∧
  ¬ fails (validate (conanfile "clang" [6; 0; 0] None)).
Proof.
  split.
  - apply (validate_major_only (conanfile "clang" [5; 9; 9] None) 5 [9; 9] 6);
      [reflexivity | by vm_compute | reflexivity | lia].
  - intros H.
    apply (validate_major_only (conanfile "clang" [6; 0; 0] None) 6 [0; 0] 6) in H;
      [lia | reflexivity | by vm_compute | reflexivity].
Defined.

Lemma Version_lt_leading (x y : N) (r r' : list N) :
  y < x → Version_lt (y :: r') (x :: r) = true.
Proof.
  intros Hlt. unfold Version_lt.
  destruct (nonzero_items_cons x r) as [[_ ->]|[t ->]]; [lia |].
  destruct (nonzero_items_cons y r') as [[-> _]|[t' ->]]; [done |].
  simpl. by apply N.ltb_lt in Hlt as ->.
Qed.

(** X5: [validate] is monotone in the compiler version: with the same
    compiler and standard setting, if it accepts a version it accepts
    every version that is not below that one. *)
Theorem validate_monotone
    (self self' : ConanFile) (x y : N) (r r' : list N) :
  compiler (settings self') = compiler (settings self) →
  compiler_cppstd (settings self') = compiler_cppstd (settings self) →
  compiler_version (settings self) = x :: r →
  compiler_version (settings self') = y :: r' →
  Version_lt (y :: r') (x :: r) = false →
  outcome (validate self) = Ok tt →
  outcome (validate self') = Ok tt.
Proof.
  intros Hc Hstd Hv Hv' Hge Hok.
  assert (standard_configured self' = standard_configured self) as Hconf
    by (unfold standard_configured; by rewrite Hstd).
  destruct (standard_configured self) eqn:Hs.
  - destruct (standard_configured_inv _ Hs) as (std & Hcpp & _).
    unfold validate in *. rewrite validate_with_configured in * by done.
    rewrite (check_min_cppstd_Some self std) in Hok by done.
    rewrite (check_min_cppstd_Some self' std) by congruence.
    by destruct (less_than std (str 11)).
  - destruct (min_compiler_version_table !! compiler (settings self))
      as [entry|] eqn:Hentry.
    + rewrite (validate_known_compiler self entry) in Hok by done.
      rewrite (validate_known_compiler self' entry) by congruence.
      rewrite (older_than_leading self x r entry) in Hok by done.
      rewrite (older_than_leading self' y r' entry) by congruence.
      destruct (x <? entry) eqn:Hx; [done |]. apply N.ltb_ge in Hx.
      destruct (y <? entry) eqn:Hy; [| done]. apply N.ltb_lt in Hy.
      rewrite Version_lt_leading in Hge by lia. done.
    + by rewrite (validate_unknown_compiler self') by congruence.
Qed.

Lemma validate_monotone_witness :
  outcome (validate (conanfile "gcc" [13; 2] None)) = Ok tt.
Proof.
  apply (validate_monotone (conanfile "gcc" [6] None)
           (conanfile "gcc" [13; 2] None) 6 13 [] [2]);
    by vm_compute.
Defined.

(** ** The file hooks put together *)

Lemma fnmatch_pat_literal_inv (c : ascii) (pat name : string) :
  Ascii.eqb c "*" = false → Ascii.eqb c "?" = false →
  fnmatch_pat (String c pat) name = true →
  ∃ name', name = String c name' ∧ fnmatch_pat pat name' = true.
Proof.
  intros H1 H2. destruct name as [|d name].
  - simpl. by rewrite H1, H2.
  - rewrite fnmatch_pat_literal by done.
    intros [Hc Hrest]%andb_true_iff. apply Ascii.eqb_eq in Hc as <-. eauto.
Qed.

(** A name that [package] selects under include/ is one that
    [export_sources] selects. *)
Lemma matches_include_slash (name : string) :
  matches "include/*" name = true → matches "include*" name = true.
Proof.
  unfold matches, fnmatchcase.
  change (lower "include*") with "include*".
  change (lower "include/*") with "include/*".
  generalize (lower name) as s. intros s H.
  do 8 (apply fnmatch_pat_literal_inv in H as (? & -> & H); [| done | done]).
  repeat (rewrite fnmatch_pat_literal by done; simpl andb).
  apply fnmatch_star_any.
Qed.

Lemma packaged_exported (name : string) :
  packaged name = true → exported name = true.
Proof.
  unfold packaged, exported.
  intros [H%matches_include_slash | ->]%orb_true_iff.
  - rewrite H. by rewrite orb_true_r.
  - done.
Qed.

(** X6: from a source root to the package, through [export_sources] and
    [package] with export and package folders that start empty: the
    package folder ends with exactly the files of the source root that
    match include/* or LICENSE, with their content; nothing else gets
    through, and nothing that matches is lost on the way. *)
Theorem export_then_package_exact (self s1 s2 s3 : ConanFile) :
  export_sources_folder self = ∅ →
  export_sources self = Ok (tt, s1) →
  source_folder s2 = export_sources_folder s1 →
  package_folder s2 = ∅ →
  package s2 = Ok (tt, s3) →
  package_folder s3
  = filter (λ f, (matches "include/*" f.1 || matches "LICENSE" f.1) = true)
           (recipe_parent self).
Proof.
  intros Hes Hexp Hs2 Hpf Hpkg.
  rewrite export_sources_Ok in Hexp. injection Hexp as <-.
  rewrite package_Ok in Hpkg. injection Hpkg as <-.
  simpl in *. rewrite Hs2, Hpf, Hes.
  apply map_eq. intros name.
  rewrite lookup_package_tree, lookup_export_tree, map_lookup_filter, !lookup_empty.
  simpl. fold (packaged name).
  destruct (packaged name) eqn:Hp.
  - rewrite (packaged_exported _ Hp).
    by destruct (recipe_parent self !! name).
  - by destruct (recipe_parent self !! name).
Qed.

Lemma export_then_package_exact_witness :
  ∃ s1 s3,
    export_sources root_with_patch = Ok (tt, s1) ∧
    package (set_folder SourceFolder (export_sources_folder s1) s1) = Ok (tt, s3) ∧
    package_folder s3
    = filter (λ f, (matches "include/*" f.1 || matches "LICENSE" f.1) = true)
             (recipe_parent root_with_patch).
Proof.
  do 2 eexists. split; [apply export_sources_Ok |]. split; [apply package_Ok |].
  eapply (export_then_package_exact root_with_patch);
    [reflexivity | apply export_sources_Ok | | | apply package_Ok];
    reflexivity.
Defined.

Lemma export_tree_twice (root staged : Tree) :
  export_tree root (export_tree root staged) = export_tree root staged.
Proof.
  apply map_eq. intros name. rewrite !lookup_export_tree.
  destruct (exported name); [| done].
  by destruct (root !! name).
Qed.

Lemma package_tree_twice (source pkg : Tree) :
  package_tree source (package_tree source pkg) = package_tree source pkg.
Proof.
  apply map_eq. intros name. rewrite !lookup_package_tree.
  destruct (packaged name); [| done].
  by destruct (source !! name).
Qed.

(** X7: [export_sources] and [package] are idempotent: run a second
    time on what the first run left, each leaves the recipe object, the
    folders included, as the first run did. *)
Theorem export_and_package_idempotent (self : ConanFile) :
  (export_sources >> export_sources)%hook self = export_sources self ∧
  (package >> package)%hook self = package self.
Proof.
  unfold bind. split.
  - rewrite export_sources_Ok. rewrite export_sources_Ok.
    rewrite set_folder_twice. simpl.
    by rewrite export_tree_twice.
  - rewrite package_Ok. rewrite package_Ok.
    rewrite set_folder_twice. simpl.
    by rewrite package_tree_twice.
Qed.

(** X8: [build] and then [package]: when the patch applies cleanly the
    package is made from the patched tree, so a file that [package]
    selects is packaged with its patched content (or, if the patch took
    it away, not written); when the patch file is missing or does not
    apply, the exception of [build] is the outcome ([FileNotFoundError]
    for the missing file, [ConanException] for the refused patch) and
    [package] is not run. *)
Theorem build_then_package
    (apply_patch : list Byte.byte → Tree → option Tree) (self : ConanFile) :
  (∀ patched,
     applies_cleanly apply_patch self patched →
     ∃ s, (build apply_patch >> package)%hook self = Ok (tt, s) ∧
          source_folder s = patched ∧
          ∀ name,
            package_folder s !! name
            = if matches "include/*" name || matches "LICENSE" name
              then match patched !! name with
                   | Some content => Some content
                   | None => package_folder self !! name
                   end
              else package_folder self !! name) ∧
  (source_folder self !! "conan/1.83_compat.patch" = None →
   ∃ filename, (build apply_patch >> package)%hook self
               = Raise (FileNotFoundError filename)) ∧
  (∀ text,
     source_folder self !! "conan/1.83_compat.patch" = Some text →
     apply_patch text (source_folder self) = None →
     ∃ msg, (build apply_patch >> package)%hook self
            = Raise (ConanException msg)).
Proof.
  unfold bind, applies_cleanly. rewrite build_unfold. split; [| split].
  - intros patched (text & -> & ->).
    eexists. split; [apply package_Ok |]. simpl. split; [done |].
    intros name. apply lookup_package_tree.
  - intros ->. by eexists.
  - intros text -> ->. by eexists.
Qed.

(** With the sample tool the packaged header is the patched one, no
    longer the one of the source root. *)
Example build_then_package_sample :
  ∃ s, (build sample_patch_tool >> package)%hook sources_with_patch = Ok (tt, s) ∧
       package_folder s !! "include/boost/scope/defer.hpp"
       = Some [Byte.x2d; Byte.x2d; Byte.x2d] ∧
       recipe_parent root_with_patch !! "include/boost/scope/defer.hpp"
       = Some [Byte.x23].
Proof. eexists. split; [by vm_compute |]. split; by vm_compute. Qed.

(** X9: [package] never raises and changes the package folder only:
    under every name that matches include/* or LICENSE and is a file of
    the source folder it puts that file, and it leaves every other name
    of the package folder as it was. *)
Theorem package_only_selected (self : ConanFile) :
  ∃ pkg,
    package self = Ok (tt, set_folder PackageFolder pkg self) ∧
    ∀ name,
      pkg !! name
      = if matches "include/*" name || matches "LICENSE" name
        then match source_folder self !! name with
             | Some content => Some content
             | None => package_folder self !! name
             end
        else package_folder self !! name.
Proof.
  eexists. split; [apply package_Ok |].
  intros name. apply lookup_package_tree.
Qed.
